(** * The TLS cipher-suite table of dpkt ([dpkt/ssl_ciphersuites.py])

    A shallow embedding of the [CipherSuite] class, of the master list
    [CIPHERSUITES] and of the two indexes [BY_CODE] and [BY_NAME], followed
    by the properties of the table that the specification states.

    Python values are modelled as follows: [int] is [Z], [str] is [string]
    (all tokens of the module are ASCII), an optional argument that defaults
    to [None] is an [option], a [dict] is a [gmap] filled by successive
    insertions, and a failing subscript raises [KeyError]. *)

From stdpp Require Import gmap strings list fin_maps.
Local Open Scope Z_scope.

(** ** Python primitives *)

(** The characters [str.rstrip()] removes when called without argument,
    among the ASCII code points: tab to carriage return, the four separator
    controls and the space. *)
Definition isspace (c : Ascii.ascii) : bool :=
  let n := Z.of_N (Ascii.N_of_ascii c) in
  ((9 <=? n) && (n <=? 13)) || ((28 <=? n) && (n <=? 31)) || (n =? 32).

(** [s.rstrip()]: [s] without its trailing whitespace. *)
Fixpoint rstrip (s : string) : string :=
  match s with
  | EmptyString => EmptyString
  | String c s' =>
      match rstrip s' with
      | EmptyString => if isspace c then EmptyString else String c EmptyString
      | r => String c r
      end
  end.

(* [a + b] on strings is [a +:+ b]; a chain [a + b + c] is evaluated from
   the left, [(a +:+ b) +:+ c]. *)

(** [x in (a, b, ...)] on strings. *)
Definition contains (x : string) (tuple : list string) : bool :=
  bool_decide (x ∈ tuple).

(** [s.startswith(p)]. *)
Definition startswith (s p : string) : bool := String.prefix p s.

(** The outcome of an expression that may raise [KeyError]. *)
Inductive outcome (K A : Type) : Type :=
  | Return (a : A)
  | KeyError (k : K).
Arguments Return {K A} a.
Arguments KeyError {K A} k.

Section dict.
Context {K : Type} `{Countable K} {V : Type}.

(** [dict(items)] and the dict display [{k: v, ...}]: the pairs are
    inserted from left to right, a later pair replaces an earlier one
    with the same key. *)
Definition dict (items : list (K * V)) : gmap K V :=
  foldl (λ d kv, <[kv.1 := kv.2]> d) ∅ items.

(** [d[k]]. *)
Definition getitem (d : gmap K V) (k : K) : outcome K V :=
  match d !! k with
  | Some v => Return v
  | None => KeyError k
  end.

(** [d.get(k, default)]. *)
Definition get (d : gmap K V) (k : K) (dflt : V) : V :=
  match d !! k with
  | Some v => v
  | None => dflt
  end.
End dict.

(** ** The class [CipherSuite] *)

Module CipherSuite.

Record t : Type := Build {
  code : Z;
  _kx : string;
  _auth : string;
  cipher : string;
  mode : string;
  mac : string;
  _name : option string;
  _encoding : option string
}.

#[global] Instance eq_dec : EqDecision t.
Proof. solve_decision. Defined.

(** [CipherSuite(code, kx, auth, cipher, mode, mac, name=None,
    encoding=None)]: the five tokens lose their trailing whitespace, the
    table being padded for alignment. *)
Definition __init__ (code : Z) (kx auth cipher mode mac : string)
    (name encoding : option string) : t :=
  {| code := code;
     _kx := rstrip kx;
     _auth := rstrip auth;
     cipher := rstrip cipher;
     mode := rstrip mode;
     mac := rstrip mac;
     _name := name;
     _encoding := encoding |}.

Definition kx (self : t) : string :=
  if decide (_kx self = "") then (* for PSK *)
    _auth self
  else
    _kx self.

Definition auth (self : t) : string :=
  if decide (_auth self = "") then (* for RSA *)
    _kx self
  else
    _auth self.

Definition kx_auth (self : t) : string :=
  if decide (_auth self = "") then (* for RSA *)
    _kx self
  else if decide (_kx self = "") then (* for PSK *)
    _auth self
  else
    (_kx self +:+ "_") +:+ _auth self.

Definition encoding (self : t) : string :=
  match _encoding self with
  | None =>
      if decide (mode self = "") then
        cipher self
      else
        (cipher self +:+ "_") +:+ mode self
  | Some e => e
  end.

Definition name (self : t) : string :=
  match _name self with
  | None =>
      if decide (mac self = "") then (* for CCM and CCM_8 modes *)
        (("TLS_" +:+ kx_auth self) +:+ "_WITH_") +:+ encoding self
      else
        (((("TLS_" +:+ kx_auth self) +:+ "_WITH_") +:+ encoding self) +:+ "_") +:+ mac self
  | Some n => n
  end.


Definition MAC_SIZES : gmap string Z :=
  dict [
    ("MD5", 16);
    ("SHA", 20);
    ("SHA256", 32);
    ("SHA384", 48)
  ].

(** A value [None] of the Python table is the inner [None] here; a
    cipher that is no key of the table has no binding at all. *)
Definition BLOCK_SIZES : gmap string (option Z) :=
  dict [
    ("3DES_EDE", Some 8);
    ("AES_128", Some 16);
    ("AES_256", Some 16);
    ("ARIA", Some 16);
    ("CAMELLIA_128", Some 16);
    ("CAMELLIA_256", Some 16);
    ("CHACHA20", Some 64);
    ("DES", Some 8);
    ("DES40", Some 8);
    ("IDEA", Some 8);
    ("IDEA_128", Some 16);
    ("RC2_40", Some 8);
    ("RC2_128", Some 8);
    ("RC2_128_EXPORT40", Some 8);
    ("RC4_40", None);
    ("RC4_128", None);
    ("RC4_128_EXPORT40", None);
    ("SEED", Some 16)
  ].

(** In bytes. Default to 0. *)
Definition mac_size (self : t) : Z :=
  get MAC_SIZES (mac self) 0.

(** In bytes. Default to 1. The result is an [int] or [None]. *)
Definition block_size (self : t) : option Z :=
  get BLOCK_SIZES (cipher self) (Some 1).

Definition pfs (self : t) : bool :=
  contains (kx self) ["DHE"; "ECDHE"].

Definition aead (self : t) : bool :=
  contains (mode self) ["CCM"; "CCM_8"; "GCM"].

Definition anonymous (self : t) : bool :=
  startswith (auth self) "anon".

End CipherSuite.

(** ** The master list *)

Local Abbreviation CS := CipherSuite.__init__ (only parsing).

(** Full list from IANA:
    https://www.iana.org/assignments/tls-parameters/tls-parameters.xhtml *)
Definition CIPHERSUITES : list CipherSuite.t :=
  [
    (* not a real cipher suite, can be ignored, see RFC5746 *)
    CS 0x00ff "NULL" "        " "NULL    " "    " "NULL" (Some "TLS_EMPTY_RENEGOTIATION_INFO") None;
    (* RFC7507 *)
    CS 0x5600 "" "            " "" "" "" (Some "TLS_FALLBACK") None;
    CS 0xffff "" "            " "" "" "" (Some "UNKNOWN_CIPHER") None;

    (* RFC2246 : TLS 1.0 *)
    CS 0x0000 "NULL" "        " "NULL    " "    " "NULL" None None;

    CS 0x0001 "RSA" "         " "NULL    " "    " "MD5" None None;
    CS 0x0002 "RSA" "         " "NULL    " "    " "SHA" None None;
    CS 0x0003 "RSA_EXPORT" "  " "RC4_40  " "    " "MD5" None None;
    CS 0x0004 "RSA" "         " "RC4_128 " "    " "MD5" None None;
    CS 0x0005 "RSA" "         " "RC4_128 " "    " "SHA" None None;
    CS 0x0006 "RSA_EXPORT" "  " "RC2_40  " "CBC " "MD5" None (Some "RC2_CBC_40");
    CS 0x0007 "RSA" "         " "IDEA    " "CBC " "SHA" None None;
    CS 0x0008 "RSA_EXPORT" "  " "DES40   " "CBC " "SHA" None None;
    CS 0x0009 "RSA" "         " "DES     " "CBC " "SHA" None None;
    CS 0x000a "RSA" "         " "3DES_EDE" "CBC " "SHA" None None;

    CS 0x000b "DH" "DSS_EXPORT" "DES40   " "CBC " "SHA" None None;
    CS 0x000c "DH" "DSS       " "DES     " "CBC " "SHA" None None;
    CS 0x000d "DH" "DSS       " "3DES_EDE" "CBC " "SHA" None None;
    CS 0x000e "DH" "RSA_EXPORT" "DES40   " "CBC " "SHA" None None;
    CS 0x000f "DH" "RSA       " "DES     " "CBC " "SHA" None None;
    CS 0x0010 "DH" "RSA       " "3DES_EDE" "CBC " "SHA" None None;
    CS 0x0011 "DHE" "DSS_EXPORT" "DES40   " "CBC " "SHA" None None;
    CS 0x0012 "DHE" "DSS      " "DES     " "CBC " "SHA" None None;
    CS 0x0013 "DHE" "DSS      " "3DES_EDE" "CBC " "SHA" None None;
    CS 0x0014 "DHE" "RSA_EXPORT" "DES40   " "CBC " "SHA" None None;
    CS 0x0015 "DHE" "RSA      " "DES     " "CBC " "SHA" None None;
    CS 0x0016 "DHE" "RSA      " "3DES_EDE" "CBC " "SHA" None None;

    CS 0x0017 "DH" "anon_EXPORT" "RC4_40  " "    " "MD5" None None;
    CS 0x0018 "DH" "anon      " "RC4_128 " "    " "MD5" None None;
    CS 0x0019 "DH" "anon_EXPORT" "DES40   " "CBC " "SHA" None None;
    CS 0x001a "DH" "anon      " "DES     " "CBC " "SHA" None None;
    CS 0x001b "DH" "anon      " "3DES_EDE" "CBC " "SHA" None None;

    (* Reserved: 0x1c-0x1d *)

    (* RFC4346 : TLS 1.1 *)
    (* RFC2712 *)
    CS 0x001e "KRB5" "        " "DES     " "CBC " "SHA" None None;
    CS 0x001f "KRB5" "        " "3DES_EDE" "CBC " "SHA" None None;
    CS 0x0020 "KRB5" "        " "RC4_128 " "    " "SHA" None None;
    CS 0x0021 "KRB5" "        " "IDEA    " "CBC " "SHA" None None;
    CS 0x0022 "KRB5" "        " "DES     " "CBC " "MD5" None None;
    CS 0x0023 "KRB5" "        " "3DES_EDE" "CBC " "MD5" None None;
    CS 0x0024 "KRB5" "        " "RC4_128 " "    " "MD5" None None;
    CS 0x0025 "KRB5" "        " "IDEA    " "CBC " "MD5" None None;

    CS 0x0026 "KRB5_EXPORT" " " "DES40   " "CBC " "SHA" None (Some "DES_CBC_40");
    CS 0x0027 "KRB5_EXPORT" " " "RC2_40  " "CBC " "SHA" None (Some "RC2_CBC_40");
    CS 0x0028 "KRB5_EXPORT" " " "RC4_40  " "    " "SHA" None None;
    CS 0x0029 "KRB5_EXPORT" " " "DES40   " "CBC " "MD5" None (Some "DES_CBC_40");
    CS 0x002a "KRB5_EXPORT" " " "RC2_40  " "CBC " "MD5" None (Some "RC2_CBC_40");
    CS 0x002b "KRB5_EXPORT" " " "RC4_40  " "    " "MD5" None None;

    (* RFC4785 *)
    CS 0x002c "    " "PSK     " "NULL    " "    " "SHA" None None;
    CS 0x002d "DHE " "PSK     " "NULL    " "    " "SHA" None None;
    CS 0x002e "RSA " "PSK     " "NULL    " "    " "SHA" None None;

    (* RFC3268 *)
    CS 0x002f "RSA " "        " "AES_128 " "CBC " "SHA" None None;
    CS 0x0030 "DH  " "DSS     " "AES_128 " "CBC " "SHA" None None;
    CS 0x0031 "DH  " "RSA     " "AES_128 " "CBC " "SHA" None None;
    CS 0x0032 "DHE " "DSS     " "AES_128 " "CBC " "SHA" None None;
    CS 0x0033 "DHE " "RSA     " "AES_128 " "CBC " "SHA" None None;
    CS 0x0034 "DH  " "anon    " "AES_128 " "CBC " "SHA" None None;

    CS 0x0035 "RSA " "        " "AES_256 " "CBC " "SHA" None None;
    CS 0x0036 "DH  " "DSS     " "AES_256 " "CBC " "SHA" None None;
    CS 0x0037 "DH  " "RSA     " "AES_256 " "CBC " "SHA" None None;
    CS 0x0038 "DHE " "DSS     " "AES_256 " "CBC " "SHA" None None;
    CS 0x0039 "DHE " "RSA     " "AES_256 " "CBC " "SHA" None None;
    CS 0x003a "DH  " "anon    " "AES_256 " "CBC " "SHA" None None;

    (* RFC5246 : TLS 1.2 *)
    CS 0x003b "RSA " "        " "NULL    " "    " "SHA256" None None;
    CS 0x003c "RSA " "        " "AES_128 " "CBC " "SHA256" None None;
    CS 0x003d "RSA " "        " "AES_256 " "CBC " "SHA256" None None;
    CS 0x003e "DH  " "DSS     " "AES_128 " "CBC " "SHA256" None None;
    CS 0x003f "DH  " "RSA     " "AES_128 " "CBC " "SHA256" None None;
    CS 0x0040 "DHE " "DSS     " "AES_128 " "CBC " "SHA256" None None;

    (* RFC5932 *)
    CS 0x0041 "RSA " "        " "CAMELLIA_128" "CBC" "SHA" None None;
    CS 0x0042 "DH  " "DSS     " "CAMELLIA_128" "CBC" "SHA" None None;
    CS 0x0043 "DH  " "RSA     " "CAMELLIA_128" "CBC" "SHA" None None;
    CS 0x0044 "DHE " "DSS     " "CAMELLIA_128" "CBC" "SHA" None None;
    CS 0x0045 "DHE " "RSA     " "CAMELLIA_128" "CBC" "SHA" None None;
    CS 0x0046 "DH  " "anon    " "CAMELLIA_128" "CBC" "SHA" None None;

    (* Reserved: 0x47-5c *)
    (* Unassigned: 0x5d-5f *)
    (* Reserved: 0x60-66 *)

    (* RFC5246 : TLS 1.2 *)
    CS 0x0067 "DHE " "RSA     " "AES_128 " "CBC " "SHA256" None None;
    CS 0x0068 "DH  " "DSS     " "AES_256 " "CBC " "SHA256" None None;
    CS 0x0069 "DH  " "RSA     " "AES_256 " "CBC " "SHA256" None None;
    CS 0x006a "DHE " "DSS     " "AES_256 " "CBC " "SHA256" None None;
    CS 0x006b "DHE " "RSA     " "AES_256 " "CBC " "SHA256" None None;
    CS 0x006c "DH  " "anon    " "AES_128 " "CBC " "SHA256" None None;
    CS 0x006d "DH  " "anon    " "AES_256 " "CBC " "SHA256" None None;

    (* Unassigned: 0x6e-83 *)

    (* RFC5932 *)
    CS 0x0084 "RSA " "        " "CAMELLIA_256" "CBC" "SHA" None None;
    CS 0x0085 "DH  " "DSS     " "CAMELLIA_256" "CBC" "SHA" None None;
    CS 0x0086 "DH  " "RSA     " "CAMELLIA_256" "CBC" "SHA" None None;
    CS 0x0087 "DHE " "DSS     " "CAMELLIA_256" "CBC" "SHA" None None;
    CS 0x0088 "DHE " "RSA     " "CAMELLIA_256" "CBC" "SHA" None None;
    CS 0x0089 "DH  " "anon    " "CAMELLIA_256" "CBC" "SHA" None None;

    (* RFC4279 *)
    CS 0x008a "    " "PSK     " "RC4_128 " "    " "SHA" None None;
    CS 0x008b "    " "PSK     " "3DES_EDE" "CBC " "SHA" None None;
    CS 0x008c "    " "PSK     " "AES_128 " "CBC " "SHA" None None;
    CS 0x008d "    " "PSK     " "AES_256 " "CBC " "SHA" None None;
    CS 0x008e "DHE " "PSK     " "RC4_128 " "    " "SHA" None None;
    CS 0x008f "DHE " "PSK     " "3DES_EDE" "CBC " "SHA" None None;
    CS 0x0090 "DHE " "PSK     " "AES_128 " "CBC " "SHA" None None;
    CS 0x0091 "DHE " "PSK     " "AES_256 " "CBC " "SHA" None None;
    CS 0x0092 "RSA " "PSK     " "RC4_128 " "    " "SHA" None None;
    CS 0x0093 "RSA " "PSK     " "3DES_EDE" "CBC " "SHA" None None;
    CS 0x0094 "RSA " "PSK     " "AES_128 " "CBC " "SHA" None None;
    CS 0x0095 "RSA " "PSK     " "AES_256 " "CBC " "SHA" None None;

    (* RFC4162 *)
    CS 0x0096 "RSA " "        " "SEED    " "CBC " "SHA" None None;
    CS 0x0097 "DH  " "DSS     " "SEED    " "CBC " "SHA" None None;
    CS 0x0098 "DH  " "RSA     " "SEED    " "CBC " "SHA" None None;
    CS 0x0099 "DHE " "DSS     " "SEED    " "CBC " "SHA" None None;
    CS 0x009a "DHE " "RSA     " "SEED    " "CBC " "SHA" None None;
    CS 0x009b "DH  " "anon    " "SEED    " "CBC " "SHA" None None;

    (* RFC5288 *)
    CS 0x009c "RSA " "        " "AES_128 " "GCM " "SHA256" None None;
    CS 0x009d "RSA " "        " "AES_256 " "GCM " "SHA384" None None;
    CS 0x009e "DHE " "RSA     " "AES_128 " "GCM " "SHA256" None None;
    CS 0x009f "DHE " "RSA     " "AES_256 " "GCM " "SHA384" None None;
    CS 0x00a0 "DH  " "RSA     " "AES_128 " "GCM " "SHA256" None None;
    CS 0x00a1 "DH  " "RSA     " "AES_256 " "GCM " "SHA384" None None;
    CS 0x00a2 "DHE " "DSS     " "AES_128 " "GCM " "SHA256" None None;
    CS 0x00a3 "DHE " "DSS     " "AES_256 " "GCM " "SHA384" None None;
    CS 0x00a4 "DH  " "DSS     " "AES_128 " "GCM " "SHA256" None None;
    CS 0x00a5 "DH  " "DSS     " "AES_256 " "GCM " "SHA384" None None;
    CS 0x00a6 "DH  " "anon    " "AES_128 " "GCM " "SHA256" None None;
    CS 0x00a7 "DH  " "anon    " "AES_256 " "GCM " "SHA384" None None;

    (* RFC5487 *)
    CS 0x00a8 "    " "PSK     " "AES_128 " "GCM " "SHA256" None None;
    CS 0x00a9 "    " "PSK     " "AES_256 " "GCM " "SHA384" None None;
    CS 0x00aa "DHE " "PSK     " "AES_128 " "GCM " "SHA256" None None;
    CS 0x00ab "DHE " "PSK     " "AES_256 " "GCM " "SHA384" None None;
    CS 0x00ac "RSA " "PSK     " "AES_128 " "GCM " "SHA256" None None;
    CS 0x00ad "RSA " "PSK     " "AES_256 " "GCM " "SHA384" None None;

    CS 0x00ae "    " "PSK     " "AES_128 " "CBC " "SHA256" None None;
    CS 0x00af "    " "PSK     " "AES_256 " "CBC " "SHA384" None None;
    CS 0x00b0 "    " "PSK     " "NULL    " "    " "SHA256" None None;
    CS 0x00b1 "    " "PSK     " "NULL    " "    " "SHA384" None None;

    CS 0x00b2 "DHE " "PSK     " "AES_128 " "CBC " "SHA256" None None;
    CS 0x00b3 "DHE " "PSK     " "AES_256 " "CBC " "SHA384" None None;
    CS 0x00b4 "DHE " "PSK     " "NULL    " "    " "SHA256" None None;
    CS 0x00b5 "DHE " "PSK     " "NULL    " "    " "SHA384" None None;

    CS 0x00b6 "RSA " "PSK     " "AES_128 " "CBC " "SHA256" None None;
    CS 0x00b7 "RSA " "PSK     " "AES_256 " "CBC " "SHA384" None None;
    CS 0x00b8 "RSA " "PSK     " "NULL    " "    " "SHA256" None None;
    CS 0x00b9 "RSA " "PSK     " "NULL    " "    " "SHA384" None None;

    (* RFC5932 *)
    CS 0x00ba "RSA " "        " "CAMELLIA_128" "CBC" "SHA256" None None;
    CS 0x00bb "DH  " "DSS     " "CAMELLIA_128" "CBC" "SHA256" None None;
    CS 0x00bc "DH  " "RSA     " "CAMELLIA_128" "CBC" "SHA256" None None;
    CS 0x00bd "DHE " "DSS     " "CAMELLIA_128" "CBC" "SHA256" None None;
    CS 0x00be "DHE " "RSA     " "CAMELLIA_128" "CBC" "SHA256" None None;
    CS 0x00bf "DH  " "anon    " "CAMELLIA_128" "CBC" "SHA256" None None;

    CS 0x00c0 "RSA " "        " "CAMELLIA_256" "CBC" "SHA256" None None;
    CS 0x00c1 "DH  " "DSS     " "CAMELLIA_256" "CBC" "SHA256" None None;
    CS 0x00c2 "DH  " "RSA     " "CAMELLIA_256" "CBC" "SHA256" None None;
    CS 0x00c3 "DHE " "DSS     " "CAMELLIA_256" "CBC" "SHA256" None None;
    CS 0x00c4 "DHE " "RSA     " "CAMELLIA_256" "CBC" "SHA256" None None;
    CS 0x00c5 "DH  " "anon    " "CAMELLIA_256" "CBC" "SHA256" None None;

    (* RFC4492 *)
    CS 0xc001 "ECDH " "ECDSA  " "NULL    " "    " "SHA" None None;
    CS 0xc002 "ECDH " "ECDSA  " "RC4_128 " "    " "SHA" None None;
    CS 0xc003 "ECDH " "ECDSA  " "3DES_EDE" "CBC " "SHA" None None;
    CS 0xc004 "ECDH " "ECDSA  " "AES_128 " "CBC " "SHA" None None;
    CS 0xc005 "ECDH " "ECDSA  " "AES_256 " "CBC " "SHA" None None;

    CS 0xc006 "ECDHE" "ECDSA  " "NULL    " "    " "SHA" None None;
    CS 0xc007 "ECDHE" "ECDSA  " "RC4_128 " "    " "SHA" None None;
    CS 0xc008 "ECDHE" "ECDSA  " "3DES_EDE" "CBC " "SHA" None None;
    CS 0xc009 "ECDHE" "ECDSA  " "AES_128 " "CBC " "SHA" None None;
    CS 0xc00a "ECDHE" "ECDSA  " "AES_256 " "CBC " "SHA" None None;

    CS 0xc00b "ECDH " "RSA    " "NULL    " "    " "SHA" None None;
    CS 0xc00c "ECDH " "RSA    " "RC4_128 " "    " "SHA" None None;
    CS 0xc00d "ECDH " "RSA    " "3DES_EDE" "CBC " "SHA" None None;
    CS 0xc00e "ECDH " "RSA    " "AES_128 " "CBC " "SHA" None None;
    CS 0xc00f "ECDH " "RSA    " "AES_256 " "CBC " "SHA" None None;

    CS 0xc010 "ECDHE" "RSA    " "NULL    " "    " "SHA" None None;
    CS 0xc011 "ECDHE" "RSA    " "RC4_128 " "    " "SHA" None None;
    CS 0xc012 "ECDHE" "RSA    " "3DES_EDE" "CBC " "SHA" None None;
    CS 0xc013 "ECDHE" "RSA    " "AES_128 " "CBC " "SHA" None None;
    CS 0xc014 "ECDHE" "RSA    " "AES_256 " "CBC " "SHA" None None;

    CS 0xc015 "ECDH " "anon   " "NULL    " "    " "SHA" None None;
    CS 0xc016 "ECDH " "anon   " "RC4_128 " "    " "SHA" None None;
    CS 0xc017 "ECDH " "anon   " "3DES_EDE" "CBC " "SHA" None None;
    CS 0xc018 "ECDH " "anon   " "AES_128 " "CBC " "SHA" None None;
    CS 0xc019 "ECDH " "anon   " "AES_256 " "CBC " "SHA" None None;

    (* RFC5054 *)
    CS 0xc01a "SRP_SHA" "     " "3DES_EDE" "CBC " "SHA" None None;
    CS 0xc01b "SRP_SHA" "RSA  " "3DES_EDE" "CBC " "SHA" None None;
    CS 0xc01c "SRP_SHA" "DSS  " "3DES_EDE" "CBC " "SHA" None None;
    CS 0xc01d "SRP_SHA" "     " "AES_128 " "CBC " "SHA" None None;
    CS 0xc01e "SRP_SHA" "RSA  " "AES_128 " "CBC " "SHA" None None;
    CS 0xc01f "SRP_SHA" "DSS  " "AES_128 " "CBC " "SHA" None None;
    CS 0xc020 "SRP_SHA" "     " "AES_256 " "CBC " "SHA" None None;
    CS 0xc021 "SRP_SHA" "RSA  " "AES_256 " "CBC " "SHA" None None;
    CS 0xc022 "SRP_SHA" "DSS  " "AES_256 " "CBC " "SHA" None None;

    (* RFC5289 *)
    CS 0xc023 "ECDHE" "ECDSA  " "AES_128 " "CBC " "SHA256" None None;
    CS 0xc024 "ECDHE" "ECDSA  " "AES_256 " "CBC " "SHA384" None None;
    CS 0xc025 "ECDH " "ECDSA  " "AES_128 " "CBC " "SHA256" None None;
    CS 0xc026 "ECDH " "ECDSA  " "AES_256 " "CBC " "SHA384" None None;
    CS 0xc027 "ECDHE" "RSA    " "AES_128 " "CBC " "SHA256" None None;
    CS 0xc028 "ECDHE" "RSA    " "AES_256 " "CBC " "SHA384" None None;
    CS 0xc029 "ECDH " "RSA    " "AES_128 " "CBC " "SHA256" None None;
    CS 0xc02a "ECDH " "RSA    " "AES_256 " "CBC " "SHA384" None None;

    CS 0xc02b "ECDHE" "ECDSA  " "AES_128 " "GCM " "SHA256" None None;
    CS 0xc02c "ECDHE" "ECDSA  " "AES_256 " "GCM " "SHA384" None None;
    CS 0xc02d "ECDH " "ECDSA  " "AES_128 " "GCM " "SHA256" None None;
    CS 0xc02e "ECDH " "ECDSA  " "AES_256 " "GCM " "SHA384" None None;
    CS 0xc02f "ECDHE" "RSA    " "AES_128 " "GCM " "SHA256" None None;
    CS 0xc030 "ECDHE" "RSA    " "AES_256 " "GCM " "SHA384" None None;
    CS 0xc031 "ECDH " "RSA    " "AES_128 " "GCM " "SHA256" None None;
    CS 0xc032 "ECDH " "RSA    " "AES_256 " "GCM " "SHA384" None None;

    (* RFC5489 *)
    CS 0xc033 "ECDHE" "PSK    " "RC4_128 " "    " "SHA" None None;
    CS 0xc034 "ECDHE" "PSK    " "3DES_EDE" "CBC " "SHA" None None;
    CS 0xc035 "ECDHE" "PSK    " "AES_128 " "CBC " "SHA" None None;
    CS 0xc036 "ECDHE" "PSK    " "AES_256 " "CBC " "SHA" None None;
    CS 0xc037 "ECDHE" "PSK    " "AES_128 " "CBC " "SHA256" None None;
    CS 0xc038 "ECDHE" "PSK    " "AES_256 " "CBC " "SHA384" None None;
    CS 0xc039 "ECDHE" "PSK    " "NULL    " "    " "SHA" None None;
    CS 0xc03a "ECDHE" "PSK    " "NULL    " "    " "SHA256" None None;
    CS 0xc03b "ECDHE" "PSK    " "NULL    " "    " "SHA384" None None;

    (* RFC6209 *)
    CS 0xc03c "RSA " "        " "ARIA_128" "CBC " "SHA256" None None;
    CS 0xc03d "RSA " "        " "ARIA_256" "CBC " "SHA384" None None;
    CS 0xc03e "DH  " "DSS     " "ARIA_128" "CBC " "SHA256" None None;
    CS 0xc03f "DH  " "DSS     " "ARIA_256" "CBC " "SHA384" None None;
    CS 0xc040 "DH  " "RSA     " "ARIA_128" "CBC " "SHA256" None None;
    CS 0xc041 "DH  " "RSA     " "ARIA_256" "CBC " "SHA384" None None;
    CS 0xc042 "DHE " "DSS     " "ARIA_128" "CBC " "SHA256" None None;
    CS 0xc043 "DHE " "DSS     " "ARIA_256" "CBC " "SHA384" None None;
    CS 0xc044 "DHE " "RSA     " "ARIA_128" "CBC " "SHA256" None None;
    CS 0xc045 "DHE " "RSA     " "ARIA_256" "CBC " "SHA384" None None;
    CS 0xc046 "DH  " "anon    " "ARIA_128" "CBC " "SHA256" None None;
    CS 0xc047 "DH  " "anon    " "ARIA_256" "CBC " "SHA384" None None;

    CS 0xc048 "ECDHE" "ECDSA  " "ARIA_128" "CBC " "SHA256" None None;
    CS 0xc049 "ECDHE" "ECDSA  " "ARIA_256" "CBC " "SHA384" None None;
    CS 0xc04a "ECDH " "ECDSA  " "ARIA_128" "CBC " "SHA256" None None;
    CS 0xc04b "ECDH " "ECDSA  " "ARIA_256" "CBC " "SHA384" None None;
    CS 0xc04c "ECDHE" "RSA    " "ARIA_128" "CBC " "SHA256" None None;
    CS 0xc04d "ECDHE" "RSA    " "ARIA_256" "CBC " "SHA384" None None;
    CS 0xc04e "ECDH " "RSA    " "ARIA_128" "CBC " "SHA256" None None;
    CS 0xc04f "ECDH " "RSA    " "ARIA_256" "CBC " "SHA384" None None;

    CS 0xc050 "RSA " "        " "ARIA_128" "GCM " "SHA256" None None;
    CS 0xc051 "RSA " "        " "ARIA_256" "GCM " "SHA384" None None;
    CS 0xc052 "DHE " "RSA     " "ARIA_128" "GCM " "SHA256" None None;
    CS 0xc053 "DHE " "RSA     " "ARIA_256" "GCM " "SHA384" None None;
    CS 0xc054 "DH  " "RSA     " "ARIA_128" "GCM " "SHA256" None None;
    CS 0xc055 "DH  " "RSA     " "ARIA_256" "GCM " "SHA384" None None;
    CS 0xc056 "DHE " "DSS     " "ARIA_128" "GCM " "SHA256" None None;
    CS 0xc057 "DHE " "DSS     " "ARIA_256" "GCM " "SHA384" None None;
    CS 0xc058 "DH  " "DSS     " "ARIA_128" "GCM " "SHA256" None None;
    CS 0xc059 "DH  " "DSS     " "ARIA_256" "GCM " "SHA384" None None;
    CS 0xc05a "DH  " "anon    " "ARIA_128" "GCM " "SHA256" None None;
    CS 0xc05b "DH  " "anon    " "ARIA_256" "GCM " "SHA384" None None;

    CS 0xc05c "ECDHE" "ECDSA  " "ARIA_128" "GCM " "SHA256" None None;
    CS 0xc05d "ECDHE" "ECDSA  " "ARIA_256" "GCM " "SHA384" None None;
    CS 0xc05e "ECDH " "ECDSA  " "ARIA_128" "GCM " "SHA256" None None;
    CS 0xc05f "ECDH " "ECDSA  " "ARIA_256" "GCM " "SHA384" None None;
    CS 0xc060 "ECDHE" "RSA    " "ARIA_128" "GCM " "SHA256" None None;
    CS 0xc061 "ECDHE" "RSA    " "ARIA_256" "GCM " "SHA384" None None;
    CS 0xc062 "ECDH " "RSA    " "ARIA_128" "GCM " "SHA256" None None;
    CS 0xc063 "ECDH " "RSA    " "ARIA_256" "GCM " "SHA384" None None;

    CS 0xc064 "    " "PSK     " "ARIA_128" "CBC " "SHA256" None None;
    CS 0xc065 "    " "PSK     " "ARIA_256" "CBC " "SHA384" None None;
    CS 0xc066 "DHE " "PSK     " "ARIA_128" "CBC " "SHA256" None None;
    CS 0xc067 "DHE " "PSK     " "ARIA_256" "CBC " "SHA384" None None;
    CS 0xc068 "RSA " "PSK     " "ARIA_128" "CBC " "SHA256" None None;
    CS 0xc069 "RSA " "PSK     " "ARIA_256" "CBC " "SHA384" None None;
    CS 0xc06a "    " "PSK     " "ARIA_128" "GCM " "SHA256" None None;
    CS 0xc06b "    " "PSK     " "ARIA_256" "GCM " "SHA384" None None;
    CS 0xc06c "DHE " "PSK     " "ARIA_128" "GCM " "SHA256" None None;
    CS 0xc06d "DHE " "PSK     " "ARIA_256" "GCM " "SHA384" None None;
    CS 0xc06e "RSA " "PSK     " "ARIA_128" "GCM " "SHA256" None None;
    CS 0xc06f "RSA " "PSK     " "ARIA_256" "GCM " "SHA384" None None;
    CS 0xc070 "ECDHE" "PSK    " "ARIA_128" "GCM " "SHA256" None None;
    CS 0xc071 "ECDHE" "PSK    " "ARIA_256" "GCM " "SHA384" None None;

    (* RFC6367 *)
    CS 0xc072 "ECDHE" "ECDSA  " "CAMELLIA_128" "CBC" "SHA256" None None;
    CS 0xc073 "ECDHE" "ECDSA  " "CAMELLIA_256" "CBC" "SHA384" None None;
    CS 0xc074 "ECDH " "ECDSA  " "CAMELLIA_128" "CBC" "SHA256" None None;
    CS 0xc075 "ECDH " "ECDSA  " "CAMELLIA_256" "CBC" "SHA384" None None;
    CS 0xc076 "ECDHE" "RSA    " "CAMELLIA_128" "CBC" "SHA256" None None;
    CS 0xc077 "ECDHE" "RSA    " "CAMELLIA_256" "CBC" "SHA384" None None;
    CS 0xc078 "ECDH " "RSA    " "CAMELLIA_128" "CBC" "SHA256" None None;
    CS 0xc079 "ECDH " "RSA    " "CAMELLIA_256" "CBC" "SHA384" None None;

    CS 0xc07a "RSA " "        " "CAMELLIA_128" "GCM" "SHA256" None None;
    CS 0xc07b "RSA " "        " "CAMELLIA_256" "GCM" "SHA384" None None;
    CS 0xc07c "DHE " "RSA     " "CAMELLIA_128" "GCM" "SHA256" None None;
    CS 0xc07d "DHE " "RSA     " "CAMELLIA_256" "GCM" "SHA384" None None;
    CS 0xc07e "DH  " "RSA     " "CAMELLIA_128" "GCM" "SHA256" None None;
    CS 0xc07f "DH  " "RSA     " "CAMELLIA_256" "GCM" "SHA384" None None;
    CS 0xc080 "DHE " "DSS     " "CAMELLIA_128" "GCM" "SHA256" None None;
    CS 0xc081 "DHE " "DSS     " "CAMELLIA_256" "GCM" "SHA384" None None;
    CS 0xc082 "DH  " "DSS     " "CAMELLIA_128" "GCM" "SHA256" None None;
    CS 0xc083 "DH  " "DSS     " "CAMELLIA_256" "GCM" "SHA384" None None;
    CS 0xc084 "DH  " "anon    " "CAMELLIA_128" "GCM" "SHA256" None None;
    CS 0xc085 "DH  " "anon    " "CAMELLIA_256" "GCM" "SHA384" None None;

    CS 0xc086 "ECDHE" "ECDSA  " "CAMELLIA_128" "GCM" "SHA256" None None;
    CS 0xc087 "ECDHE" "ECDSA  " "CAMELLIA_256" "GCM" "SHA384" None None;
    CS 0xc088 "ECDH " "ECDSA  " "CAMELLIA_128" "GCM" "SHA256" None None;
    CS 0xc089 "ECDH " "ECDSA  " "CAMELLIA_256" "GCM" "SHA384" None None;
    CS 0xc08a "ECDHE" "RSA    " "CAMELLIA_128" "GCM" "SHA256" None None;
    CS 0xc08b "ECDHE" "RSA    " "CAMELLIA_256" "GCM" "SHA384" None None;
    CS 0xc08c "ECDH " "RSA    " "CAMELLIA_128" "GCM" "SHA256" None None;
    CS 0xc08d "ECDH " "RSA    " "CAMELLIA_256" "GCM" "SHA384" None None;

    CS 0xc08e "    " "PSK     " "CAMELLIA_128" "GCM" "SHA256" None None;
    CS 0xc08f "    " "PSK     " "CAMELLIA_256" "GCM" "SHA384" None None;
    CS 0xc090 "DHE " "PSK     " "CAMELLIA_128" "GCM" "SHA256" None None;
    CS 0xc091 "DHE " "PSK     " "CAMELLIA_256" "GCM" "SHA384" None None;
    CS 0xc092 "RSA " "PSK     " "CAMELLIA_128" "GCM" "SHA256" None None;
    CS 0xc093 "RSA " "PSK     " "CAMELLIA_256" "GCM" "SHA384" None None;
    CS 0xc094 "    " "PSK     " "CAMELLIA_128" "CBC" "SHA256" None None;
    CS 0xc095 "    " "PSK     " "CAMELLIA_256" "CBC" "SHA384" None None;
    CS 0xc096 "DHE " "PSK     " "CAMELLIA_128" "CBC" "SHA256" None None;
    CS 0xc097 "DHE " "PSK     " "CAMELLIA_256" "CBC" "SHA384" None None;
    CS 0xc098 "RSA " "PSK     " "CAMELLIA_128" "CBC" "SHA256" None None;
    CS 0xc099 "RSA " "PSK     " "CAMELLIA_256" "CBC" "SHA384" None None;
    CS 0xc09a "ECDHE" "PSK    " "CAMELLIA_128" "CBC" "SHA256" None None;
    CS 0xc09b "ECDHE" "PSK    " "CAMELLIA_256" "CBC" "SHA384" None None;

    (* RFC6655 *)
    CS 0xc09c "RSA " "        " "AES_128 " "CCM " "" None None;
    CS 0xc09d "RSA " "        " "AES_256 " "CCM " "" None None;
    CS 0xc09e "DHE " "RSA     " "AES_128 " "CCM " "" None None;
    CS 0xc09f "DHE " "RSA     " "AES_256 " "CCM " "" None None;
    CS 0xc0a0 "RSA " "        " "AES_128 " "CCM_8" "" None None;
    CS 0xc0a1 "RSA " "        " "AES_256 " "CCM_8" "" None None;
    CS 0xc0a2 "DHE " "RSA     " "AES_128 " "CCM_8" "" None None;
    CS 0xc0a3 "DHE " "RSA     " "AES_256 " "CCM_8" "" None None;

    CS 0xc0a4 "    " "PSK     " "AES_128 " "CCM " "" None None;
    CS 0xc0a5 "    " "PSK     " "AES_256 " "CCM " "" None None;
    CS 0xc0a6 "DHE " "PSK     " "AES_128 " "CCM " "" None None;
    CS 0xc0a7 "DHE " "PSK     " "AES_256 " "CCM " "" None None;
    CS 0xc0a8 "    " "PSK     " "AES_128 " "CCM_8" "" None None;
    CS 0xc0a9 "    " "PSK     " "AES_256 " "CCM_8" "" None None;
    CS 0xc0aa "DHE " "PSK     " "AES_128 " "CCM_8" "" None None;
    CS 0xc0ab "DHE " "PSK     " "AES_256 " "CCM_8" "" None None;

    (* RFC7251 *)
    CS 0xc0ac "ECDHE" "ECDSA  " "AES_128 " "CCM " "" None None;
    CS 0xc0ad "ECDHE" "ECDSA  " "AES_256 " "CCM " "" None None;
    CS 0xc0ae "ECDHE" "ECDSA  " "AES_128 " "CCM_8" "" None None;
    CS 0xc0af "ECDHE" "ECDSA  " "AES_256 " "CCM_8" "" None None;

    (* Unassigned: 0xc0b0-0xcca7 *)
    CS 0xcc13 "ECDHE" "RSA    " "CHACHA20" "POLY1305" "SHA256"
      (Some "OLD_TLS_ECDHE_RSA_WITH_CHACHA20_POLY1305_SHA256") None;
    CS 0xcc14 "ECDHE" "ECDSA  " "CHACHA20" "POLY1305" "SHA256"
      (Some "OLD_TLS_ECDHE_ECDSA_WITH_CHACHA20_POLY1305_SHA256") None;
    CS 0xcc15 "DHE  " "RSA    " "CHACHA20" "POLY1305" "SHA256"
      (Some "OLD_TLS_DHE_RSA_WITH_CHACHA20_POLY1305_SHA256") None;

    (* RFC7905 *)
    CS 0xcca8 "ECDHE" "RSA    " "CHACHA20" "POLY1305" "SHA256" None None;
    CS 0xcca9 "ECDHE" "ECDSA  " "CHACHA20" "POLY1305" "SHA256" None None;
    CS 0xccaa "DHE  " "RSA    " "CHACHA20" "POLY1305" "SHA256" None None;

    CS 0xccab "     " "PSK    " "CHACHA20" "POLY1305" "SHA256" None None;
    CS 0xccac "ECDHE" "PSK    " "CHACHA20" "POLY1305" "SHA256" None None;
    CS 0xccad "DHE  " "PSK    " "CHACHA20" "POLY1305" "SHA256" None None;
    CS 0xccae "RSA  " "PSK    " "CHACHA20" "POLY1305" "SHA256" None None;

    (* Unassigned: 0xccaf-0xfefd *)
    (* Reserved: 0xfefe-0xffff *)

    CS 0x010080 "RSA" "RSA    " "RC4_128         " "   " "MD5"
      (Some "SSL_CK_RC4_128_WITH_MD5") None;
    CS 0x020080 "RSA" "RSA    " "RC4_128_EXPORT40" "   " "MD5"
      (Some "SSL_CK_RC4_128_EXPORT40_WITH_MD5") None;
    CS 0x030080 "RSA" "RSA    " "RC2_128         " "CBC" "MD5"
      (Some "SSL_CK_RC2_128_CBC_WITH_MD5") (Some "RC2_CBC_128");
    CS 0x040080 "RSA" "RSA    " "RC2_128_EXPORT40" "CBC" "MD5"
      (Some "SSL_CK_RC2_128_CBC_EXPORT40_WITH_MD5") (Some "RC2_CBC_128_EXPORT40");
    CS 0x050080 "RSA" "RSA    " "IDEA_128        " "CBC" "MD5"
      (Some "SSL_CK_IDEA_128_CBC_WITH_MD5") (Some "IDEA_CBC_128");
    CS 0x060040 "RSA" "RSA    " "DES             " "CBC" "MD5"
      (Some "SSL_CK_DES_64_CBC_WITH_MD5") (Some "DES_CBC_64");
    CS 0x0700C0 "RSA" "RSA    " "3DES            " "CBC" "MD5"
      (Some "SSL_CK_DES_192_EDE3_CBC_WITH_MD5") (Some "DES_EDE3_CBC_192")
  ].

(** ** The indexes *)

Definition BY_CODE : gmap Z CipherSuite.t :=
  dict ((λ cipher, (CipherSuite.code cipher, cipher)) <$> CIPHERSUITES).

(** The dictionary [BY_NAME] builds on its first call. *)
Definition name_index : gmap string CipherSuite.t :=
  dict ((λ suite, (CipherSuite.name suite, suite)) <$> CIPHERSUITES).

(** [BY_NAME(name)], as a function of the global [BY_NAME_DICT] it reads
    and assigns: the result and the global after the call. The global is
    assigned before the subscript is evaluated, so it is set even when the
    call raises. *)
Definition BY_NAME (name : string) (BY_NAME_DICT : option (gmap string CipherSuite.t))
    : outcome string CipherSuite.t * option (gmap string CipherSuite.t) :=
  let d :=
    match BY_NAME_DICT with
    | None => name_index
    | Some d => d
    end in
  (getitem d name, Some d).

(** [BY_CODE[code]]. *)
Definition lookup_by_code (code : Z) : outcome Z CipherSuite.t :=
  getitem BY_CODE code.

Definition NULL_SUITE : outcome Z CipherSuite.t := lookup_by_code 0x0000.

(** The states of the global [BY_NAME_DICT]: [None] when the module is
    loaded, the name index after any call of [BY_NAME]. *)
Inductive BY_NAME_DICT_state : option (gmap string CipherSuite.t) → Prop :=
  | BY_NAME_DICT_initial : BY_NAME_DICT_state None
  | BY_NAME_DICT_built : BY_NAME_DICT_state (Some name_index).

(** The value of an expression that returned; [None] when it raised. *)
Definition returned {K A : Type} (o : outcome K A) : option A :=
  match o with
  | Return a => Some a
  | KeyError _ => None
  end.

(** A run of calls [BY_NAME(n1)], [BY_NAME(n2)], ..., each on the global
    the call before it left, a raised [KeyError] being caught by the caller:
    the outcomes in order and the global after the last call. *)
Fixpoint BY_NAME_calls (names : list string) (g : option (gmap string CipherSuite.t))
    : list (outcome string CipherSuite.t) * option (gmap string CipherSuite.t) :=
  match names with
  | [] => ([], g)
  | name :: names =>
      let (o, g') := BY_NAME name g in
      let (os, g'') := BY_NAME_calls names g' in
      (o :: os, g'')
  end.




(** The entry [e] with its explicit name and its explicit encoding
    removed: what the constructor builds from the same tokens when both
    optional arguments are left out. *)
Definition tokens_only (e : CipherSuite.t) : CipherSuite.t :=
  CipherSuite.__init__ (CipherSuite.code e) (CipherSuite._kx e) (CipherSuite._auth e)
    (CipherSuite.cipher e) (CipherSuite.mode e) (CipherSuite.mac e) None None.

(** ** Proof automation *)

(** Closes a decidable fact about the closed table by evaluation. *)
Ltac by_evaluation := apply (bool_decide_unpack _); vm_compute; exact I.

(** Reads a statement over the entries of the table as a [Forall]. *)
Ltac on_every_entry :=
  lazymatch goal with
  | |- ∀ e, e ∈ ?l → @?P e => apply (proj1 (Forall_forall P l)); by_evaluation
  end.

(** * Properties *)

(** ** Facts about [dict], [d[k]] and [d.get] *)

Section dict_facts.
Context {K : Type} `{Countable K} {V : Type}.
Implicit Types (items : list (K * V)) (k : K) (v : V) (d : gmap K V).

Lemma dict_snoc items k v : dict (items ++ [(k, v)]) = <[k := v]> (dict items).
Proof. unfold dict. by rewrite foldl_app. Qed.

(** Filling a dictionary from left to right is [list_to_map] on the
    reversed list: in both, the rightmost pair of a key is the one kept. *)
Lemma dict_list_to_map items : dict items = list_to_map (reverse items).
Proof.
  induction items as [|[k v] items IH] using rev_ind; [done|].
  by rewrite dict_snoc, reverse_snoc, IH.
Qed.

Lemma dict_lookup_None items k : dict items !! k = None ↔ k ∉ items.*1.
Proof.
  rewrite dict_list_to_map, <-not_elem_of_list_to_map.
  by rewrite fmap_reverse, elem_of_reverse.
Qed.

Lemma dict_lookup_Some_elem items k v : dict items !! k = Some v → (k, v) ∈ items.
Proof.
  rewrite dict_list_to_map. intros Hk%elem_of_list_to_map_2.
  by apply elem_of_reverse.
Qed.

Lemma dict_lookup_NoDup items k v :
  NoDup items.*1 → (k, v) ∈ items → dict items !! k = Some v.
Proof.
  intros Hnd Hin. rewrite dict_list_to_map. apply elem_of_list_to_map_1.
  - by rewrite fmap_reverse, reverse_Permutation.
  - by apply elem_of_reverse.
Qed.

Lemma getitem_Return d k v : getitem d k = Return v ↔ d !! k = Some v.
Proof. unfold getitem. destruct (d !! k); split; congruence. Qed.

Lemma getitem_KeyError d k : getitem d k = KeyError k ↔ d !! k = None.
Proof. unfold getitem. destruct (d !! k); split; congruence. Qed.

Lemma get_Some d k v dflt : d !! k = Some v → get d k dflt = v.
Proof. unfold get. by intros ->. Qed.

Lemma get_None d k dflt : d !! k = None → get d k dflt = dflt.
Proof. unfold get. by intros ->. Qed.

End dict_facts.

(** An index [dict((key(x), x) for x in l)]. *)
Section index.
Context {K : Type} `{Countable K} {A : Type} (key : A → K) (l : list A).

Local Abbreviation index := (dict ((λ x, (key x, x)) <$> l)).

Lemma index_keys : ((λ x, (key x, x)) <$> l).*1 = key <$> l.
Proof. rewrite <-list_fmap_compose. by apply list_fmap_ext. Qed.

Lemma index_lookup_elem (x : A) : NoDup (key <$> l) → x ∈ l → index !! key x = Some x.
Proof.
  intros Hnd Hx. apply dict_lookup_NoDup.
  - by rewrite index_keys.
  - by apply (list_elem_of_fmap_2 (λ x, (key x, x))).
Qed.

Lemma index_lookup_Some k (x : A) : index !! k = Some x → x ∈ l ∧ key x = k.
Proof.
  intros Hk%dict_lookup_Some_elem.
  apply list_elem_of_fmap in Hk as (y & [= -> ->] & Hy). done.
Qed.

Lemma index_lookup_None k : index !! k = None ↔ k ∉ key <$> l.
Proof. by rewrite dict_lookup_None, index_keys. Qed.

End index.

(** ** The table *)

Example rstrip_padding :
  rstrip "RC4_128 " = "RC4_128" ∧ rstrip "        " = "" ∧ rstrip "" = "" ∧
  rstrip "CCM_8" = "CCM_8" ∧ rstrip " a  b  " = " a  b".
Proof. by vm_compute. Qed.

Example NULL_SUITE_entry :
  NULL_SUITE = Return (CS 0x0000 "NULL" "        " "NULL    " "    " "NULL" None None).
Proof. by vm_compute. Qed.

Lemma CIPHERSUITES_length : length CIPHERSUITES = 337%nat.
Proof. reflexivity. Qed.

Lemma codes_NoDup : NoDup (CipherSuite.code <$> CIPHERSUITES).
Proof. by_evaluation. Qed.

Lemma names_NoDup : NoDup (CipherSuite.name <$> CIPHERSUITES).
Proof. by_evaluation. Qed.

(** No record occurs twice, so equality of records is identity of the
    objects of the list. *)
Lemma CIPHERSUITES_NoDup : NoDup CIPHERSUITES.
Proof. apply (NoDup_fmap_1 CipherSuite.code), codes_NoDup. Qed.

Lemma BY_NAME_getitem name g :
  BY_NAME_DICT_state g → BY_NAME name g = (getitem name_index name, Some name_index).
Proof. by intros []. Qed.

Lemma BY_NAME_state name g : BY_NAME_DICT_state g → BY_NAME_DICT_state (BY_NAME name g).2.
Proof. intros Hg. rewrite (BY_NAME_getitem _ _ Hg). constructor. Qed.

Lemma BY_CODE_lookup_entry e :
  e ∈ CIPHERSUITES → BY_CODE !! CipherSuite.code e = Some e.
Proof. apply index_lookup_elem, codes_NoDup. Qed.

Lemma name_index_lookup_entry e :
  e ∈ CIPHERSUITES → name_index !! CipherSuite.name e = Some e.
Proof. apply index_lookup_elem, names_NoDup. Qed.

(** C1. Round trip between an entry and both indexes: for every entry [e]
    of the table, [BY_CODE[e.code]] is [e], and [BY_NAME(e.name)] returns
    [e], on the first call (the index is not built yet) as on a later one. *)
Theorem index_round_trip (e : CipherSuite.t) (g : option (gmap string CipherSuite.t)) :
  e ∈ CIPHERSUITES →
  BY_NAME_DICT_state g →
  lookup_by_code (CipherSuite.code e) = Return e ∧
  (BY_NAME (CipherSuite.name e) g).1 = Return e.
Proof.
  intros He Hg. split.
  - by apply getitem_Return, BY_CODE_lookup_entry.
  - rewrite (BY_NAME_getitem _ _ Hg). by apply getitem_Return, name_index_lookup_entry.
Qed.

Lemma index_round_trip_witness :
  let e := CS 0x0026 "KRB5_EXPORT" " " "DES40   " "CBC " "SHA" None (Some "DES_CBC_40") in
  lookup_by_code 0x0026 = Return e ∧
  (BY_NAME "TLS_KRB5_EXPORT_WITH_DES_CBC_40_SHA" None).1 = Return e.
Proof.
  intros e. apply (index_round_trip e None).
  - by_evaluation.
  - constructor.
Defined.

(** C8. Two entries at distinct positions of the table have distinct
    codes, the three-byte SSL2 codes included. *)
Theorem code_unique (i j : nat) (a b : CipherSuite.t) :
  CIPHERSUITES !! i = Some a →
  CIPHERSUITES !! j = Some b →
  i ≠ j →
  CipherSuite.code a ≠ CipherSuite.code b.
Proof.
  intros Ha Hb Hij Hab. apply Hij.
  apply (proj1 (NoDup_alt _) codes_NoDup i j (CipherSuite.code a)).
  - by rewrite list_lookup_fmap, Ha.
  - by rewrite list_lookup_fmap, Hb, Hab.
Qed.

Lemma code_unique_witness :
  CipherSuite.code (CS 0x5600 "" "            " "" "" "" (Some "TLS_FALLBACK") None) ≠
  CipherSuite.code (CS 0xffff "" "            " "" "" "" (Some "UNKNOWN_CIPHER") None).
Proof. apply (code_unique 1 2); [reflexivity | reflexivity | lia]. Defined.

(** C9. A code that no entry has makes [BY_CODE[code]] raise [KeyError]
    and a name that no entry has makes [BY_NAME(name)] raise [KeyError]: an
    outcome that is no entry. Whatever a lookup returns is an entry of the
    table with the code or the name asked for, and a code or a name of the
    table gives its entry. A failed [BY_NAME] leaves the name index built, so
    the registry keeps answering. *)
Theorem lookup_absent_or_entry (code : Z) (name : string)
    (g : option (gmap string CipherSuite.t)) :
  BY_NAME_DICT_state g →
  (code ∉ CipherSuite.code <$> CIPHERSUITES → lookup_by_code code = KeyError code) ∧
  (name ∉ CipherSuite.name <$> CIPHERSUITES → (BY_NAME name g).1 = KeyError name) ∧
  (∀ e, lookup_by_code code = Return e → e ∈ CIPHERSUITES ∧ CipherSuite.code e = code) ∧
  (∀ e, (BY_NAME name g).1 = Return e → e ∈ CIPHERSUITES ∧ CipherSuite.name e = name) ∧
  (∀ e, e ∈ CIPHERSUITES → CipherSuite.code e = code → lookup_by_code code = Return e) ∧
  (∀ e, e ∈ CIPHERSUITES → CipherSuite.name e = name → (BY_NAME name g).1 = Return e) ∧
  BY_NAME_DICT_state (BY_NAME name g).2.
Proof.
  intros Hg. rewrite (BY_NAME_getitem _ _ Hg). cbn [fst snd]. split_and!.
  - intros Hc. by apply getitem_KeyError, index_lookup_None.
  - intros Hn. by apply getitem_KeyError, index_lookup_None.
  - by intros e He%getitem_Return%index_lookup_Some.
  - by intros e He%getitem_Return%index_lookup_Some.
  - intros e He <-. by apply getitem_Return, BY_CODE_lookup_entry.
  - intros e He <-. by apply getitem_Return, name_index_lookup_entry.
  - constructor.
Qed.

Lemma lookup_absent_or_entry_witness :
  lookup_by_code 0x001c = KeyError 0x001c ∧
  (BY_NAME "TLS_RSA_WITH_RC4_128_SHA1" None).1 = KeyError "TLS_RSA_WITH_RC4_128_SHA1" ∧
  lookup_by_code 0x0005 = Return (CS 0x0005 "RSA" "         " "RC4_128 " "    " "SHA" None None) ∧
  (BY_NAME "TLS_RSA_WITH_RC4_128_SHA" (Some name_index)).1 =
    Return (CS 0x0005 "RSA" "         " "RC4_128 " "    " "SHA" None None).
Proof.
  destruct (lookup_absent_or_entry 0x001c "TLS_RSA_WITH_RC4_128_SHA1" None)
    as (Hcode & Hname & _); [constructor|].
  destruct (lookup_absent_or_entry 0x0005 "TLS_RSA_WITH_RC4_128_SHA" (Some name_index))
    as (_ & _ & _ & _ & Hcode' & Hname' & _); [constructor|].
  split; [apply Hcode; by_evaluation|].
  split; [apply Hname; by_evaluation|].
  split; [apply Hcode'; [by_evaluation | reflexivity]|].
  apply Hname'; [by_evaluation | reflexivity].
Defined.

(** ** The predicates *)

Lemma contains_true x tuple : contains x tuple = true ↔ x ∈ tuple.
Proof. unfold contains. apply bool_decide_eq_true. Qed.

Lemma contains_false x tuple : contains x tuple = false ↔ x ∉ tuple.
Proof. unfold contains. apply bool_decide_eq_false. Qed.

(** The mode tokens of the table, once stripped. *)
Lemma CIPHERSUITES_modes e :
  e ∈ CIPHERSUITES →
  CipherSuite.mode e ∈ [""; "CBC"; "GCM"; "CCM"; "CCM_8"; "POLY1305"].
Proof. revert e. on_every_entry. Qed.

(** C6. For every entry of the table, [aead] is [True] exactly when the
    mode is one of CCM, CCM_8 and GCM; it is [False] for the other modes of
    the table: the empty mode, CBC and POLY1305. *)
Theorem aead_exactly_CCM_GCM (e : CipherSuite.t) :
  e ∈ CIPHERSUITES →
  (CipherSuite.aead e = true ↔
     CipherSuite.mode e = "CCM" ∨ CipherSuite.mode e = "CCM_8" ∨ CipherSuite.mode e = "GCM") ∧
  (CipherSuite.aead e = false ↔
     CipherSuite.mode e = "" ∨ CipherSuite.mode e = "CBC" ∨ CipherSuite.mode e = "POLY1305").
Proof.
  intros He%CIPHERSUITES_modes. unfold CipherSuite.aead.
  rewrite contains_true, contains_false.
  rewrite !elem_of_cons, !elem_of_nil. rewrite !elem_of_cons, elem_of_nil in He.
  destruct He as [Hm|[Hm|[Hm|[Hm|[Hm|[Hm|[]]]]]]]; rewrite Hm; intuition congruence.
Qed.

Lemma aead_exactly_CCM_GCM_witness :
  let e := CS 0xc0a2 "DHE " "RSA     " "AES_128 " "CCM_8" "" None None in
  (CipherSuite.aead e = true ↔
     CipherSuite.mode e = "CCM" ∨ CipherSuite.mode e = "CCM_8" ∨ CipherSuite.mode e = "GCM") ∧
  (CipherSuite.aead e = false ↔
     CipherSuite.mode e = "" ∨ CipherSuite.mode e = "CBC" ∨ CipherSuite.mode e = "POLY1305").
Proof. intros e. apply (aead_exactly_CCM_GCM e). by_evaluation. Defined.

(** C7. [pfs] is [True] exactly when the key exchange, which is the [auth]
    token when the [kx] token is empty, is the string DHE or the string
    ECDHE. *)
Theorem pfs_exactly_DHE_ECDHE (self : CipherSuite.t) :
  CipherSuite.kx self =
    (if decide (CipherSuite._kx self = "") then CipherSuite._auth self
     else CipherSuite._kx self) ∧
  (CipherSuite.pfs self = true ↔
     CipherSuite.kx self = "DHE" ∨ CipherSuite.kx self = "ECDHE") ∧
  (CipherSuite.pfs self = false ↔
     CipherSuite.kx self ≠ "DHE" ∧ CipherSuite.kx self ≠ "ECDHE").
Proof.
  split; [done|]. unfold CipherSuite.pfs.
  rewrite contains_true, contains_false, !elem_of_cons, !elem_of_nil. tauto.
Qed.

(** C10. Every entry of the table with mode POLY1305 has [aead] [False];
    these entries are the ones with codes 0xcc13 to 0xcc15 and 0xcca8 to
    0xccae. *)
Theorem POLY1305_not_aead (e : CipherSuite.t) :
  e ∈ CIPHERSUITES →
  (CipherSuite.mode e = "POLY1305" → CipherSuite.aead e = false) ∧
  (CipherSuite.mode e = "POLY1305" ↔
     CipherSuite.code e ∈
       [0xcc13; 0xcc14; 0xcc15; 0xcca8; 0xcca9; 0xccaa; 0xccab; 0xccac; 0xccad; 0xccae]).
Proof.
  intros He. split.
  - intros Hm. unfold CipherSuite.aead. rewrite Hm. reflexivity.
  - revert e He. on_every_entry.
Qed.

Lemma POLY1305_not_aead_witness :
  let e := CS 0xcca8 "ECDHE" "RSA    " "CHACHA20" "POLY1305" "SHA256" None None in
  CipherSuite.mode e = "POLY1305" ∧ CipherSuite.aead e = false ∧
  CipherSuite.code e ∈
    [0xcc13; 0xcc14; 0xcc15; 0xcca8; 0xcca9; 0xccaa; 0xccab; 0xccac; 0xccad; 0xccae].
Proof.
  intros e. destruct (POLY1305_not_aead e) as [Haead Hcode]; [by_evaluation|].
  split; [reflexivity|]. split; [by apply Haead | by apply Hcode].
Defined.

(** ** The canonical name *)

Lemma append_assoc (a b c : string) : (a +:+ b) +:+ c = a +:+ (b +:+ c).
Proof.
  induction a as [|x a IH]; [reflexivity|].
  change (String x ((a +:+ b) +:+ c) = String x (a +:+ (b +:+ c))). by rewrite IH.
Qed.

Lemma append_empty_r (a : string) : a +:+ "" = a.
Proof.
  induction a as [|x a IH]; [reflexivity|].
  change (String x (a +:+ "") = String x a). by rewrite IH.
Qed.

(** C3. [name] is the explicit name when the entry has one; otherwise it
    is "TLS_", the [kx_auth] token, "_WITH_" and the [encoding] token, followed
    by "_" and the mac exactly when the mac is not empty. The entries of codes
    0xcc15 and 0xccaa have the same tokens and distinct names: the explicit
    name of the first wins over the name its tokens derive, which is the name
    of the second. *)
Theorem name_explicit_or_derived :
  (∀ self : CipherSuite.t,
     CipherSuite.name self =
       match CipherSuite._name self with
       | Some explicit => explicit
       | None =>
           "TLS_" +:+ CipherSuite.kx_auth self +:+ "_WITH_" +:+ CipherSuite.encoding self +:+
           (if decide (CipherSuite.mac self = "") then "" else "_" +:+ CipherSuite.mac self)
       end) ∧
  (∃ old new : CipherSuite.t,
     lookup_by_code 0xcc15 = Return old ∧
     lookup_by_code 0xccaa = Return new ∧
     CipherSuite._kx old = CipherSuite._kx new ∧
     CipherSuite._auth old = CipherSuite._auth new ∧
     CipherSuite.cipher old = CipherSuite.cipher new ∧
     CipherSuite.mode old = CipherSuite.mode new ∧
     CipherSuite.mac old = CipherSuite.mac new ∧
     CipherSuite._encoding old = CipherSuite._encoding new ∧
     CipherSuite._name new = None ∧
     CipherSuite.name old = "OLD_TLS_DHE_RSA_WITH_CHACHA20_POLY1305_SHA256" ∧
     CipherSuite.name new = "TLS_DHE_RSA_WITH_CHACHA20_POLY1305_SHA256" ∧
     CipherSuite.name old ≠ CipherSuite.name new).
Proof.
  split.
  - intros self. unfold CipherSuite.name.
    destruct (CipherSuite._name self) as [explicit|]; [reflexivity|].
    destruct (decide (CipherSuite.mac self = "")) as [_|_].
    + by rewrite append_empty_r, !append_assoc.
    + by rewrite !append_assoc.
  - eexists _, _. split; [by vm_compute|]. split; [by vm_compute|].
    by vm_compute.
Qed.

(** ** Sizes *)

(** What [MAC_SIZES] holds, key by key. *)
Lemma MAC_SIZES_lookup (m : string) :
  (m = "MD5" ∧ CipherSuite.MAC_SIZES !! m = Some 16) ∨
  (m = "SHA" ∧ CipherSuite.MAC_SIZES !! m = Some 20) ∨
  (m = "SHA256" ∧ CipherSuite.MAC_SIZES !! m = Some 32) ∨
  (m = "SHA384" ∧ CipherSuite.MAC_SIZES !! m = Some 48) ∨
  ((m ∉ ["MD5"; "SHA"; "SHA256"; "SHA384"]) ∧ CipherSuite.MAC_SIZES !! m = None).
Proof.
  unfold CipherSuite.MAC_SIZES.
  match goal with |- context [dict ?l !! m] => destruct (dict l !! m) as [n|] eqn:Hm end.
  - apply dict_lookup_Some_elem in Hm. rewrite !elem_of_cons, elem_of_nil in Hm.
    destruct Hm as [[= -> ->]|[[= -> ->]|[[= -> ->]|[[= -> ->]|[]]]]]; auto 10.
  - apply dict_lookup_None in Hm. auto 10.
Qed.

(** The mac tokens of the table, once stripped. *)
Lemma CIPHERSUITES_macs e :
  e ∈ CIPHERSUITES →
  CipherSuite.mac e ∈ [""; "NULL"; "MD5"; "SHA"; "SHA256"; "SHA384"].
Proof. revert e. on_every_entry. Qed.

(** C2, as the specification states it, fails on the entry of code 0x0000
    (and on the one of code 0x00ff): its mac token is NULL, a token that is
    not empty and is no key of [MAC_SIZES], and its [mac_size] is 0. *)
Lemma mac_size_zero_with_mac_NULL :
  let e := CS 0x0000 "NULL" "        " "NULL    " "    " "NULL" None None in
  e ∈ CIPHERSUITES ∧
  CipherSuite.mac e = "NULL" ∧
  CipherSuite.mac_size e = 0 ∧
  ¬ (CipherSuite.mac_size e = 0 ↔ CipherSuite.mac e = "").
Proof.
  intros e. split; [by_evaluation|]. split; [reflexivity|]. split; [reflexivity|].
  intros [Hmac _]. by specialize (Hmac eq_refl).
Qed.

(** C2, amended. For every entry of the table, [mac_size] is one of 0, 16,
    20, 32 and 48, and it is 0 exactly when the mac token is empty or is
    NULL. *)
Theorem mac_size_values (e : CipherSuite.t) :
  e ∈ CIPHERSUITES →
  CipherSuite.mac_size e ∈ [0; 16; 20; 32; 48] ∧
  (CipherSuite.mac_size e = 0 ↔ CipherSuite.mac e = "" ∨ CipherSuite.mac e = "NULL").
Proof.
  intros He%CIPHERSUITES_macs. unfold CipherSuite.mac_size.
  rewrite !elem_of_cons, elem_of_nil in He. rewrite !elem_of_cons, elem_of_nil.
  destruct (MAC_SIZES_lookup (CipherSuite.mac e))
    as [[Hm Hl]|[[Hm Hl]|[[Hm Hl]|[[Hm Hl]|[Hm Hl]]]]].
  1-4: rewrite (get_Some _ _ _ _ Hl), Hm; split; [auto 10|]; split; [lia|];
       intros [?|?]; discriminate.
  rewrite (get_None _ _ _ Hl). split; [auto|]. split; [|done]. intros _.
  rewrite !not_elem_of_cons in Hm. intuition.
Qed.

Lemma mac_size_values_witness :
  let e := CS 0xc09d "RSA " "        " "AES_256 " "CCM " "" None None in
  CipherSuite.mac_size e ∈ [0; 16; 20; 32; 48] ∧
  (CipherSuite.mac_size e = 0 ↔ CipherSuite.mac e = "" ∨ CipherSuite.mac e = "NULL").
Proof. intros e. apply (mac_size_values e). by_evaluation. Defined.

(** What [BLOCK_SIZES] holds: a block size for fifteen cipher tokens,
    [None] for the three RC4 tokens, and nothing else. *)
Lemma BLOCK_SIZES_lookup (c : string) (v : option Z) :
  CipherSuite.BLOCK_SIZES !! c = Some v ↔
  (c, v) ∈
    [("3DES_EDE", Some 8); ("AES_128", Some 16); ("AES_256", Some 16); ("ARIA", Some 16);
     ("CAMELLIA_128", Some 16); ("CAMELLIA_256", Some 16); ("CHACHA20", Some 64);
     ("DES", Some 8); ("DES40", Some 8); ("IDEA", Some 8); ("IDEA_128", Some 16);
     ("RC2_40", Some 8); ("RC2_128", Some 8); ("RC2_128_EXPORT40", Some 8);
     ("RC4_40", None); ("RC4_128", None); ("RC4_128_EXPORT40", None); ("SEED", Some 16)].
Proof.
  unfold CipherSuite.BLOCK_SIZES. split.
  - apply dict_lookup_Some_elem.
  - apply dict_lookup_NoDup. by_evaluation.
Qed.

Lemma BLOCK_SIZES_lookup_None (c : string) :
  CipherSuite.BLOCK_SIZES !! c = None ↔
  c ∉ ["3DES_EDE"; "AES_128"; "AES_256"; "ARIA"; "CAMELLIA_128"; "CAMELLIA_256"; "CHACHA20";
       "DES"; "DES40"; "IDEA"; "IDEA_128"; "RC2_40"; "RC2_128"; "RC2_128_EXPORT40";
       "RC4_40"; "RC4_128"; "RC4_128_EXPORT40"; "SEED"].
Proof. unfold CipherSuite.BLOCK_SIZES. by rewrite dict_lookup_None. Qed.

Lemma block_size_of_lookup (self : CipherSuite.t) (v : option Z) :
  CipherSuite.BLOCK_SIZES !! CipherSuite.cipher self = Some v →
  CipherSuite.block_size self = v.
Proof. apply get_Some. Qed.

(** C4. The three cases of [block_size]. A cipher token that
    [BLOCK_SIZES] maps to a size gives that size: 16 for AES_128, 8 for
    3DES_EDE and DES, 64 for CHACHA20, 16 for SEED. The RC4 tokens, the three
    of [BLOCK_SIZES] and every token of the table that starts with RC4, give
    [None], which is no size and not the default. A token that is no key of
    [BLOCK_SIZES] gives the default 1. *)
Theorem block_size_three_way (self : CipherSuite.t) :
  (∀ n : Z,
     CipherSuite.BLOCK_SIZES !! CipherSuite.cipher self = Some (Some n) →
     CipherSuite.block_size self = Some n) ∧
  (CipherSuite.cipher self = "AES_128" → CipherSuite.block_size self = Some 16) ∧
  (CipherSuite.cipher self = "3DES_EDE" → CipherSuite.block_size self = Some 8) ∧
  (CipherSuite.cipher self = "DES" → CipherSuite.block_size self = Some 8) ∧
  (CipherSuite.cipher self = "CHACHA20" → CipherSuite.block_size self = Some 64) ∧
  (CipherSuite.cipher self = "SEED" → CipherSuite.block_size self = Some 16) ∧
  (CipherSuite.cipher self ∈ ["RC4_40"; "RC4_128"; "RC4_128_EXPORT40"] ↔
     CipherSuite.BLOCK_SIZES !! CipherSuite.cipher self = Some None) ∧
  (CipherSuite.BLOCK_SIZES !! CipherSuite.cipher self = Some None →
     CipherSuite.block_size self = None ∧
     (∀ n : Z, CipherSuite.block_size self ≠ Some n)) ∧
  (self ∈ CIPHERSUITES → startswith (CipherSuite.cipher self) "RC4" = true →
     CipherSuite.block_size self = None) ∧
  (CipherSuite.cipher self ∉ dom CipherSuite.BLOCK_SIZES →
     CipherSuite.block_size self = Some 1).
Proof.
  split_and!.
  - intros n. apply block_size_of_lookup.
  - intros Hc. apply block_size_of_lookup. by rewrite Hc.
  - intros Hc. apply block_size_of_lookup. by rewrite Hc.
  - intros Hc. apply block_size_of_lookup. by rewrite Hc.
  - intros Hc. apply block_size_of_lookup. by rewrite Hc.
  - intros Hc. apply block_size_of_lookup. by rewrite Hc.
  - rewrite BLOCK_SIZES_lookup, !elem_of_cons, !elem_of_nil.
    split; [intros [->|[->|[->|[]]]]; auto 20|].
    intros Hc. repeat (destruct Hc as [Hc|Hc]; [by (simplify_eq; auto 10)|]). done.
  - intros Hc. rewrite (block_size_of_lookup _ _ Hc). done.
  - revert self. on_every_entry.
  - intros Hc%not_elem_of_dom. by apply get_None.
Qed.

(** The cipher tokens of the table that are no key of [BLOCK_SIZES], and
    so have the default block size. *)
Lemma CIPHERSUITES_default_block_size e :
  e ∈ CIPHERSUITES →
  CipherSuite.cipher e ∉ dom CipherSuite.BLOCK_SIZES →
  CipherSuite.cipher e ∈ [""; "NULL"; "ARIA_128"; "ARIA_256"; "3DES"].
Proof.
  intros He. rewrite not_elem_of_dom, BLOCK_SIZES_lookup_None.
  revert e He. on_every_entry.
Qed.

(** C5 does not hold of the code. [BLOCK_SIZES] has the key ARIA, with
    size 16, and no entry of the table has the cipher token ARIA: the 54 ARIA
    entries (codes 0xc03c to 0xc071) have the tokens ARIA_128 and ARIA_256,
    which are no keys of [BLOCK_SIZES], and their [block_size] is the
    default 1. *)
Theorem ARIA_block_size_is_the_default :
  CipherSuite.BLOCK_SIZES !! "ARIA" = Some (Some 16) ∧
  CipherSuite.BLOCK_SIZES !! "ARIA_128" = None ∧
  CipherSuite.BLOCK_SIZES !! "ARIA_256" = None ∧
  Forall (λ e, CipherSuite.cipher e ≠ "ARIA") CIPHERSUITES ∧
  Forall (λ e, startswith (CipherSuite.cipher e) "ARIA" = true →
               CipherSuite.cipher e ∈ ["ARIA_128"; "ARIA_256"] ∧
               0xc03c ≤ CipherSuite.code e ≤ 0xc071 ∧
               CipherSuite.block_size e = Some 1) CIPHERSUITES ∧
  length (filter (λ e, startswith (CipherSuite.cipher e) "ARIA" = true) CIPHERSUITES)
    = 54%nat ∧
  lookup_by_code 0xc03c =
    Return (CS 0xc03c "RSA " "        " "ARIA_128" "CBC " "SHA256" None None) ∧
  CipherSuite.block_size (CS 0xc03c "RSA " "        " "ARIA_128" "CBC " "SHA256" None None)
    = Some 1.
Proof.
  split_and!.
  - apply BLOCK_SIZES_lookup. by_evaluation.
  - apply BLOCK_SIZES_lookup_None. by_evaluation.
  - apply BLOCK_SIZES_lookup_None. by_evaluation.
  - by_evaluation.
  - by_evaluation.
  - by vm_compute.
  - by vm_compute.
  - apply get_None, BLOCK_SIZES_lookup_None. by_evaluation.
Qed.

(** ** The constructor and its stripping of the tokens *)











(** ** Key exchange and authentication *)



(** X4. In the table, [kx] and [auth] are empty for the two markers of
    codes 0x5600 and 0xffff and for no other entry; every other entry has a
    key exchange and an authentication. *)
Theorem kx_and_auth_of_the_table :
  Forall (λ e, (CipherSuite.kx e = "" ↔ CipherSuite.code e ∈ [0x5600; 0xffff]) ∧
               (CipherSuite.auth e = "" ↔ CipherSuite.code e ∈ [0x5600; 0xffff]))
    CIPHERSUITES.
Proof. by_evaluation. Qed.

(** ** Anonymous suites *)

Lemma startswith_prefix (s p : string) : startswith s p = true ↔ ∃ t, s = p +:+ t.
Proof.
  unfold startswith. revert s. induction p as [|c p IH]; intros s.
  - split; [by exists s | by destruct s].
  - destruct s as [|d s]; cbn [String.prefix].
    + split; [done | by intros [t [=]]].
    + destruct (Ascii.ascii_dec c d) as [->|Hcd].
      * rewrite IH. split; intros [t Ht]; exists t.
        -- by rewrite Ht.
        -- by injection Ht.
      * split; [done|]. intros [t [= Hd _]]. by destruct Hcd.
Qed.

(** X5. [anonymous] is [True] exactly when [auth] begins with anon. In
    the table these are the entries whose stored authentication token is anon
    or anon_EXPORT; their key exchange is DH or ECDH, so none of them has
    [pfs]. *)
Theorem anonymous_suites :
  (∀ self : CipherSuite.t,
     CipherSuite.anonymous self = true ↔ ∃ t, CipherSuite.auth self = "anon" +:+ t) ∧
  Forall (λ e, CipherSuite.anonymous e = true ↔
               CipherSuite._auth e ∈ ["anon"; "anon_EXPORT"]) CIPHERSUITES ∧
  Forall (λ e, CipherSuite.anonymous e = true →
               CipherSuite.kx e ∈ ["DH"; "ECDH"] ∧ CipherSuite.pfs e = false) CIPHERSUITES.
Proof.
  split_and!.
  - intros self. apply startswith_prefix.
  - by_evaluation.
  - by_evaluation.
Qed.

(** ** More on the indexes *)

(** X6. Two entries at distinct positions of the table have distinct
    names, so the name index, which keeps the last entry of a name, loses
    none. *)
Theorem name_unique (i j : nat) (a b : CipherSuite.t) :
  CIPHERSUITES !! i = Some a →
  CIPHERSUITES !! j = Some b →
  i ≠ j →
  CipherSuite.name a ≠ CipherSuite.name b.
Proof.
  intros Ha Hb Hij Hab. apply Hij.
  apply (proj1 (NoDup_alt _) names_NoDup i j (CipherSuite.name a)).
  - by rewrite list_lookup_fmap, Ha.
  - by rewrite list_lookup_fmap, Hb, Hab.
Qed.

Lemma name_unique_witness :
  CipherSuite.name
    (CS 0xcc15 "DHE  " "RSA    " "CHACHA20" "POLY1305" "SHA256"
       (Some "OLD_TLS_DHE_RSA_WITH_CHACHA20_POLY1305_SHA256") None) ≠
  CipherSuite.name (CS 0xccaa "DHE  " "RSA    " "CHACHA20" "POLY1305" "SHA256" None None).
Proof. apply (name_unique 322 325); [reflexivity | reflexivity | lia]. Defined.

Lemma dict_size {K : Type} `{Countable K} {V : Type} (items : list (K * V)) :
  NoDup items.*1 → size (dict items) = length items.
Proof.
  intros Hnd. rewrite dict_list_to_map, <-length_reverse.
  rewrite <-(map_to_list_to_map (M := gmap K)) at 2.
  - by rewrite length_map_to_list.
  - by rewrite fmap_reverse, reverse_Permutation.
Qed.

(** X7. Each index has one binding for each of the 337 entries of the
    table: no entry is lost to another with the same code or the same
    name. *)
Theorem indexes_hold_every_entry :
  size BY_CODE = length CIPHERSUITES ∧
  size name_index = length CIPHERSUITES ∧
  length CIPHERSUITES = 337%nat ∧
  (∀ e, e ∈ CIPHERSUITES ↔ ∃ code, BY_CODE !! code = Some e) ∧
  (∀ e, e ∈ CIPHERSUITES ↔ ∃ name, name_index !! name = Some e).
Proof.
  split_and!.
  - unfold BY_CODE. rewrite dict_size, length_fmap; [done|].
    rewrite index_keys. apply codes_NoDup.
  - unfold name_index. rewrite dict_size, length_fmap; [done|].
    rewrite index_keys. apply names_NoDup.
  - reflexivity.
  - intros e. split.
    + intros He. eexists. by apply BY_CODE_lookup_entry.
    + by intros [code [He _]%index_lookup_Some].
  - intros e. split.
    + intros He. eexists. by apply name_index_lookup_entry.
    + by intros [name [He _]%index_lookup_Some].
Qed.

(** X8. A run of calls of [BY_NAME] that starts when the module is loaded
    answers each call from the one name index, whatever was asked before and
    whether earlier calls raised; the index is built by the first call and
    kept. *)
Theorem BY_NAME_calls_from_the_index (names : list string)
    (g : option (gmap string CipherSuite.t)) :
  BY_NAME_DICT_state g →
  (BY_NAME_calls names g).1 = getitem name_index <$> names ∧
  (BY_NAME_calls names g).2 = (if names is [] then g else Some name_index) ∧
  BY_NAME_DICT_state (BY_NAME_calls names g).2.
Proof.
  revert g. induction names as [|name names IH]; intros g Hg; [done|].
  cbn [BY_NAME_calls]. rewrite (BY_NAME_getitem _ _ Hg).
  destruct (IH (Some name_index) BY_NAME_DICT_built) as (Hos & Hg' & _).
  destruct (BY_NAME_calls names (Some name_index)) as [os g''].
  cbn [fst snd] in *. subst os. split_and!.
  - by rewrite fmap_cons.
  - rewrite Hg'. by destruct names.
  - rewrite Hg'. destruct names; constructor.
Qed.

Lemma BY_NAME_calls_from_the_index_witness :
  (BY_NAME_calls ["NO_SUCH_SUITE"; "TLS_FALLBACK"; "TLS_FALLBACK"] None).1 =
    [KeyError "NO_SUCH_SUITE";
     Return (CS 0x5600 "" "            " "" "" "" (Some "TLS_FALLBACK") None);
     Return (CS 0x5600 "" "            " "" "" "" (Some "TLS_FALLBACK") None)].
Proof.
  destruct (BY_NAME_calls_from_the_index
              ["NO_SUCH_SUITE"; "TLS_FALLBACK"; "TLS_FALLBACK"] None BY_NAME_DICT_initial)
    as [-> _].
  by vm_compute.
Defined.

(** X9. The two lookups agree: the entry [BY_NAME] returns is the one
    [BY_CODE] has at the code of that entry, and the entry [BY_CODE] has at a
    code is the one [BY_NAME] returns for the name of that entry. *)
Theorem lookups_agree (code : Z) (name : string) (e : CipherSuite.t)
    (g : option (gmap string CipherSuite.t)) :
  BY_NAME_DICT_state g →
  ((BY_NAME name g).1 = Return e →
     CipherSuite.name e = name ∧ lookup_by_code (CipherSuite.code e) = Return e) ∧
  (lookup_by_code code = Return e →
     CipherSuite.code e = code ∧ (BY_NAME (CipherSuite.name e) g).1 = Return e).
Proof.
  intros Hg. rewrite !(BY_NAME_getitem _ _ Hg). cbn [fst]. split.
  - intros [He Hn]%getitem_Return%index_lookup_Some. split; [done|].
    by apply getitem_Return, BY_CODE_lookup_entry.
  - intros [He Hc]%getitem_Return%index_lookup_Some. split; [done|].
    by apply getitem_Return, name_index_lookup_entry.
Qed.

Lemma lookups_agree_witness :
  let e := CS 0xc09d "RSA " "        " "AES_256 " "CCM " "" None None in
  lookup_by_code 0xc09d = Return e ∧ (BY_NAME "TLS_RSA_WITH_AES_256_CCM" None).1 = Return e.
Proof.
  intros e.
  destruct (lookups_agree 0xc09d "TLS_RSA_WITH_AES_256_CCM" e None BY_NAME_DICT_initial)
    as [Hname Hcode].
  split; [by apply Hname | by apply Hcode].
Defined.

(** ** Sizes of any suite *)

(** X10. For any suite, one of the table or one a caller constructs,
    [mac_size] is the size [MAC_SIZES] gives to the mac token when the token is
    one of its four keys, and 0 for any other token: it is never negative and
    it is positive exactly for the four keys. *)
Theorem mac_size_of_any_suite (self : CipherSuite.t) :
  (CipherSuite.mac self = "MD5" → CipherSuite.mac_size self = 16) ∧
  (CipherSuite.mac self = "SHA" → CipherSuite.mac_size self = 20) ∧
  (CipherSuite.mac self = "SHA256" → CipherSuite.mac_size self = 32) ∧
  (CipherSuite.mac self = "SHA384" → CipherSuite.mac_size self = 48) ∧
  (CipherSuite.mac self ∉ ["MD5"; "SHA"; "SHA256"; "SHA384"] ↔
     CipherSuite.mac_size self = 0) ∧
  (CipherSuite.mac self ∈ ["MD5"; "SHA"; "SHA256"; "SHA384"] ↔
     0 < CipherSuite.mac_size self) ∧
  CipherSuite.mac_size self ∈ [0; 16; 20; 32; 48].
Proof.
  unfold CipherSuite.mac_size.
  rewrite !not_elem_of_cons, !elem_of_cons, !elem_of_nil.
  destruct (MAC_SIZES_lookup (CipherSuite.mac self))
    as [[Hm Hl]|[[Hm Hl]|[[Hm Hl]|[[Hm Hl]|[Hm Hl]]]]].
  1-4: rewrite (get_Some _ _ _ _ Hl), Hm;
       repeat split; intros; try lia; try (by auto 10); by intuition congruence.
  rewrite (get_None _ _ _ Hl). rewrite !not_elem_of_cons in Hm.
  repeat split; intros; try lia; try (by auto 10); by intuition congruence.
Qed.

(** X11. For any suite, [block_size] is [None], 1, 8, 16 or 64, and it is
    1 exactly when the cipher token is no key of [BLOCK_SIZES], no key having
    the size 1. In the table the entries with block size 1 are those whose
    cipher token is empty, NULL, ARIA_128, ARIA_256 or 3DES. *)
Theorem block_size_of_any_suite :
  (∀ self : CipherSuite.t,
     CipherSuite.block_size self ∈ [None; Some 1; Some 8; Some 16; Some 64] ∧
     (CipherSuite.block_size self = Some 1 ↔
        CipherSuite.cipher self ∉ dom CipherSuite.BLOCK_SIZES)) ∧
  Forall (λ e, CipherSuite.block_size e = Some 1 ↔
               CipherSuite.cipher e ∈ [""; "NULL"; "ARIA_128"; "ARIA_256"; "3DES"])
    CIPHERSUITES.
Proof.
  split; [|by_evaluation].
  intros self. rewrite not_elem_of_dom.
  destruct (CipherSuite.BLOCK_SIZES !! CipherSuite.cipher self) as [v|] eqn:Hl.
  - rewrite (block_size_of_lookup _ _ Hl).
    apply BLOCK_SIZES_lookup in Hl. rewrite !elem_of_cons, elem_of_nil in Hl.
    rewrite !elem_of_cons.
    repeat (destruct Hl as [[= _ ->]|Hl];
            [by (split; [auto 10 | split; intros; simplify_eq])|]).
    done.
  - unfold CipherSuite.block_size. rewrite (get_None _ _ _ Hl).
    split; [|done]. rewrite !elem_of_cons. auto.
Qed.

(** X12. Among the entries of the table whose name is derived, the mac
    token is empty exactly for the modes CCM and CCM_8, the case the name
    derivation treats apart; the only other entries with an empty mac are the
    two markers of codes 0x5600 and 0xffff, which have explicit names. *)
Theorem empty_mac_is_CCM :
  Forall (λ e, CipherSuite._name e = None →
               (CipherSuite.mac e = "" ↔ CipherSuite.mode e ∈ ["CCM"; "CCM_8"]))
    CIPHERSUITES ∧
  Forall (λ e, CipherSuite.mac e = "" →
               CipherSuite.mode e ∈ ["CCM"; "CCM_8"] ∨
               CipherSuite.code e ∈ [0x5600; 0xffff])
    CIPHERSUITES.
Proof. split; by_evaluation. Qed.

(** ** Names and their overrides *)




(** X14. No override of the table is redundant: an explicit name differs
    from the name the tokens of its entry derive, and an explicit encoding
    differs from the one the cipher and the mode derive. *)
Theorem explicit_overrides_differ :
  Forall (λ e, ∀ n, CipherSuite._name e = Some n → n ≠ CipherSuite.name (tokens_only e))
    CIPHERSUITES ∧
  Forall (λ e, ∀ enc, CipherSuite._encoding e = Some enc →
                      enc ≠ CipherSuite.encoding (tokens_only e))
    CIPHERSUITES.
Proof.
  split; apply Forall_forall; intros e He.
  - intros n Hn.
    assert (CipherSuite._name e ≠ Some (CipherSuite.name (tokens_only e))) as Hne.
    { clear n Hn. revert e He. on_every_entry. }
    congruence.
  - intros enc Henc.
    assert (CipherSuite._encoding e ≠ Some (CipherSuite.encoding (tokens_only e))) as Hne.
    { clear enc Henc. revert e He. on_every_entry. }
    congruence.
Qed.

(** ** The tests of the module

    The assertions of [TestCipherSuites], evaluated on the embedding. An
    assertion [BY_CODE[c].attr == v] holds when the subscript returns an
    entry whose attribute is [v]; [BY_CODE[c] == BY_NAME(n)] holds when both
    return the same entry. *)

Example test_kx :
  Forall (λ p : Z * string, CipherSuite.kx <$> returned (lookup_by_code p.1) = Some p.2)
    [
     (0x0005, "RSA"); (0x0021, "KRB5"); (0x002d, "DHE"); (0x0034, "DH");
     (0x003c, "RSA"); (0x0042, "DH"); (0x006a, "DHE"); (0x0084, "RSA");
     (0x0091, "DHE"); (0x0098, "DH"); (0x00ab, "DHE"); (0x00b0, "PSK");
     (0x00bb, "DH"); (0xc008, "ECDHE"); (0xc016, "ECDH"); (0xc01d, "SRP_SHA");
     (0xc027, "ECDHE"); (0xc036, "ECDHE"); (0xc045, "DHE"); (0xc052, "DHE");
     (0xc068, "RSA"); (0xc074, "ECDH"); (0xc08d, "ECDH"); (0xc09d, "RSA");
     (0xc0a2, "DHE"); (0xc0ad, "ECDHE"); (0xcc13, "ECDHE"); (0xcca8, "ECDHE");
     (0xccae, "RSA")
    ].
Proof. by_evaluation. Qed.

Example test_auth :
  Forall (λ p : Z * string, CipherSuite.auth <$> returned (lookup_by_code p.1) = Some p.2)
    [
     (0x0005, "RSA"); (0x0021, "KRB5"); (0x002d, "PSK"); (0x0034, "anon");
     (0x003c, "RSA"); (0x0042, "DSS"); (0x006a, "DSS"); (0x0084, "RSA");
     (0x0091, "PSK"); (0x0098, "RSA"); (0x00ab, "PSK"); (0x00b0, "PSK");
     (0x00bb, "DSS"); (0xc008, "ECDSA"); (0xc016, "anon"); (0xc01d, "SRP_SHA");
     (0xc027, "RSA"); (0xc036, "PSK"); (0xc045, "RSA"); (0xc052, "RSA");
     (0xc068, "PSK"); (0xc074, "ECDSA"); (0xc08d, "RSA"); (0xc09d, "RSA");
     (0xc0a2, "RSA"); (0xc0ad, "ECDSA"); (0xcc14, "ECDSA"); (0xcca8, "RSA");
     (0xccae, "PSK")
    ].
Proof. by_evaluation. Qed.

Example test_pfs :
  Forall (λ p : string * bool, CipherSuite.pfs <$> returned (BY_NAME p.1 None).1 = Some p.2)
    [
     ("TLS_RSA_WITH_RC4_128_SHA", false);
     ("TLS_DHE_DSS_WITH_AES_256_CBC_SHA256", true);
     ("TLS_ECDHE_ECDSA_WITH_3DES_EDE_CBC_SHA", true)
    ].
Proof. by_evaluation. Qed.

Example test_aead :
  Forall (λ p : string * bool, CipherSuite.aead <$> returned (BY_NAME p.1 None).1 = Some p.2)
    [
     ("TLS_RSA_WITH_AES_128_CBC_SHA256", false);
     ("TLS_RSA_WITH_AES_256_CCM", true);
     ("TLS_DHE_RSA_WITH_AES_128_CCM_8", true);
     ("TLS_DHE_PSK_WITH_AES_256_GCM_SHA384", true)
    ].
Proof. by_evaluation. Qed.

Example test_anonymous :
  Forall (λ p : string * bool,
            CipherSuite.anonymous <$> returned (BY_NAME p.1 None).1 = Some p.2)
    [
     ("TLS_RSA_WITH_RC4_128_SHA", false);
     ("TLS_DH_anon_WITH_AES_128_CBC_SHA", true);
     ("TLS_DH_anon_EXPORT_WITH_DES40_CBC_SHA", true)
    ].
Proof. by_evaluation. Qed.

Example test_by_name_and_code :
  Forall (λ p : Z * string,
            is_Some (returned (lookup_by_code p.1)) ∧
            returned (lookup_by_code p.1) = returned (BY_NAME p.2 None).1)
    [
     (0x00ff, "TLS_EMPTY_RENEGOTIATION_INFO");
     (0x0026, "TLS_KRB5_EXPORT_WITH_DES_CBC_40_SHA");
     (0x0005, "TLS_RSA_WITH_RC4_128_SHA");
     (0x0021, "TLS_KRB5_WITH_IDEA_CBC_SHA");
     (0x002d, "TLS_DHE_PSK_WITH_NULL_SHA");
     (0x0034, "TLS_DH_anon_WITH_AES_128_CBC_SHA");
     (0x003c, "TLS_RSA_WITH_AES_128_CBC_SHA256");
     (0x0042, "TLS_DH_DSS_WITH_CAMELLIA_128_CBC_SHA");
     (0x006a, "TLS_DHE_DSS_WITH_AES_256_CBC_SHA256");
     (0x0084, "TLS_RSA_WITH_CAMELLIA_256_CBC_SHA");
     (0x0091, "TLS_DHE_PSK_WITH_AES_256_CBC_SHA");
     (0x0098, "TLS_DH_RSA_WITH_SEED_CBC_SHA");
     (0x00ab, "TLS_DHE_PSK_WITH_AES_256_GCM_SHA384");
     (0x00b0, "TLS_PSK_WITH_NULL_SHA256");
     (0x00bb, "TLS_DH_DSS_WITH_CAMELLIA_128_CBC_SHA256");
     (0xc008, "TLS_ECDHE_ECDSA_WITH_3DES_EDE_CBC_SHA");
     (0xc016, "TLS_ECDH_anon_WITH_RC4_128_SHA");
     (0xc01d, "TLS_SRP_SHA_WITH_AES_128_CBC_SHA");
     (0xc027, "TLS_ECDHE_RSA_WITH_AES_128_CBC_SHA256");
     (0xc036, "TLS_ECDHE_PSK_WITH_AES_256_CBC_SHA");
     (0xc045, "TLS_DHE_RSA_WITH_ARIA_256_CBC_SHA384");
     (0xc052, "TLS_DHE_RSA_WITH_ARIA_128_GCM_SHA256");
     (0xc068, "TLS_RSA_PSK_WITH_ARIA_128_CBC_SHA256");
     (0xc074, "TLS_ECDH_ECDSA_WITH_CAMELLIA_128_CBC_SHA256");
     (0xc08d, "TLS_ECDH_RSA_WITH_CAMELLIA_256_GCM_SHA384");
     (0xc09d, "TLS_RSA_WITH_AES_256_CCM");
     (0xc0a2, "TLS_DHE_RSA_WITH_AES_128_CCM_8");
     (0xc0ad, "TLS_ECDHE_ECDSA_WITH_AES_256_CCM");
     (0xcca8, "TLS_ECDHE_RSA_WITH_CHACHA20_POLY1305_SHA256");
     (0xccae, "TLS_RSA_PSK_WITH_CHACHA20_POLY1305_SHA256");
     (0xcc15, "OLD_TLS_DHE_RSA_WITH_CHACHA20_POLY1305_SHA256")
    ].
Proof. by_evaluation. Qed.
